(** * Ayurtrack backend ([app.py]): outbreak and remedy lookups

    A shallow embedding of the Flask handlers of [app.py] and of the
    pandas / Python string operations they call, followed by the
    properties of the lookups.

    Modelling conventions.
    - Text is [string]; the Python [str] methods are modelled on ASCII
      characters.  Characters beyond ASCII are carried through unchanged:
      they are neither cased nor white space here.
    - A table cell is [option string]: [None] is pandas' NaN.  Every column
      is a text (object) column, as in the data model of the service.
    - A [DataFrame] is a row count together with a finite map from column
      names to columns.
    - A Python exception is a value of [Exception]; code that may raise
      returns [Exc].
    - [print] appends a line to the server's standard output, which is
      part of the state the handlers run in, next to the two tables. *)

From Stdlib Require Import Ascii String Arith Lia.
From stdpp Require Import base decidable option list strings gmap sorting.

#[local] Set Warnings "-clear-no-such-hyp".

(** ** Python [str] methods *)

Module Py.

Definition ord (c : ascii) : nat := nat_of_ascii c.

(** [str.isspace] on one ASCII character: TAB, LF, VT, FF, CR, the four
    separators FS, GS, RS, US, and the space. *)
Definition isspace (c : ascii) : bool :=
  let n := ord c in
  ((9 <=? n) && (n <=? 13)) || ((28 <=? n) && (n <=? 32)).

Definition isupper (c : ascii) : bool :=
  let n := ord c in (65 <=? n) && (n <=? 90).

Definition islower (c : ascii) : bool :=
  let n := ord c in (97 <=? n) && (n <=? 122).

Definition iscased (c : ascii) : bool := isupper c || islower c.

Definition lower_char (c : ascii) : ascii :=
  if isupper c then ascii_of_nat (ord c + 32) else c.

Definition upper_char (c : ascii) : ascii :=
  if islower c then ascii_of_nat (ord c - 32) else c.

(** [s.lower()] *)
Fixpoint lower (s : string) : string :=
  match s with
  | EmptyString => EmptyString
  | String c s' => String (lower_char c) (lower s')
  end.

(** [s.lstrip()] *)
Fixpoint lstrip (s : string) : string :=
  match s with
  | EmptyString => EmptyString
  | String c s' => if isspace c then lstrip s' else s
  end.

(** [s.rstrip()] *)
Fixpoint rstrip (s : string) : string :=
  match s with
  | EmptyString => EmptyString
  | String c s' =>
      match rstrip s' with
      | EmptyString => if isspace c then EmptyString else String c EmptyString
      | r => String c r
      end
  end.

(** [s.strip()] *)
Definition strip (s : string) : string := rstrip (lstrip s).

(** [s.title()]: a character that follows a cased character is
    lower-cased, any other character is upper-cased. *)
Fixpoint title_from (previous_is_cased : bool) (s : string) : string :=
  match s with
  | EmptyString => EmptyString
  | String c s' =>
      String (if previous_is_cased then lower_char c else upper_char c)
             (title_from (iscased c) s')
  end.

Definition title (s : string) : string := title_from false s.

(** [sep.join(l)] *)
Fixpoint join (sep : string) (l : list string) : string :=
  match l with
  | [] => EmptyString
  | [x] => x
  | x :: l' => x +:+ sep +:+ join sep l'
  end.

(** [not s] for a string *)
Definition falsy (s : string) : bool :=
  match s with EmptyString => true | _ => false end.

(** [sorted(l)] on strings: ascending in the order of code points. *)
Definition sorted (l : list string) : list string := merge_sort String.le l.

End Py.

(** ** Exceptions *)

Inductive Exception :=
| KeyError (key : string).

(** [str(e)] *)
Definition exception_str (e : Exception) : string :=
  match e with
  | KeyError key => "'" +:+ key +:+ "'"
  end.

Inductive Exc (A : Type) : Type :=
| Ok (a : A)
| Raise (e : Exception).
Arguments Ok {A} a.
Arguments Raise {A} e.

Definition exc_bind {A B} (m : Exc A) (k : A -> Exc B) : Exc B :=
  match m with
  | Ok a => k a
  | Raise e => Raise e
  end.

#[global] Instance Exc_bind : MBind Exc := fun A B k m => exc_bind m k.
#[global] Instance Exc_ret : MRet Exc := fun A a => Ok a.

(** ** The pandas operations the handlers use *)

Module Pd.

(** A cell of a text column; [None] is NaN. *)
Abbreviation cell := (option string).

Record DataFrame := {
  nrows : nat;
  columns : gmap string (list cell)
}.

(** Every column has one entry per row. *)
Definition wf (df : DataFrame) : Prop :=
  map_Forall (fun _ col => length col = nrows df) (columns df).

(** [name in df.columns] *)
Definition has_column (df : DataFrame) (name : string) : bool :=
  bool_decide (is_Some (columns df !! name)).

(** [df[name]] *)
Definition getitem (df : DataFrame) (name : string) : Exc (list cell) :=
  match columns df !! name with
  | Some col => Ok col
  | None => Raise (KeyError name)
  end.

(** [s.str.lower()]: NaN stays NaN. *)
Definition str_lower (s : list cell) : list cell := fmap (M:=option) Py.lower <$> s.

(** [s.fillna(v)] *)
Definition fillna (v : string) (s : list cell) : list cell :=
  (fun c => Some (default v c)) <$> s.

(** One cell of [s == x]: NaN compares unequal to everything. *)
Definition cell_eq (c : cell) (x : string) : bool :=
  match c with
  | Some v => bool_decide (v = x)
  | None => false
  end.

(** [s == x] *)
Definition eq_str (s : list cell) (x : string) : list bool :=
  (fun c => cell_eq c x) <$> s.

(** [m1 & m2] *)
Definition mask_and (m1 m2 : list bool) : list bool := zip_with andb m1 m2.

(** The entries of [l] at the rows where [mask] is [True]. *)
Fixpoint select {A} (mask : list bool) (l : list A) : list A :=
  match mask, l with
  | b :: mask', x :: l' => if b then x :: select mask' l' else select mask' l'
  | _, _ => []
  end.

Definition count_true (mask : list bool) : nat := length (filter Is_true mask).

(** [df[mask]] *)
Definition getitem_mask (df : DataFrame) (mask : list bool) : DataFrame :=
  {| nrows := count_true mask; columns := select mask <$> columns df |}.

(** [df.empty]: no row or no column. *)
Definition empty (df : DataFrame) : bool :=
  bool_decide (nrows df = 0) || bool_decide (columns df = ∅).

(** [s.dropna()]; what is left holds no NaN, so it is a list of strings. *)
Definition dropna (s : list cell) : list string := omap id s.

(** [.str.strip()] and [.str.title()] on a column without NaN. *)
Definition str_strip (l : list string) : list string := Py.strip <$> l.
Definition str_title (l : list string) : list string := Py.title <$> l.

(** [s.unique()]: the values in order of appearance, each kept the first
    time it is met; [seen] is the hash table of the values met so far. *)
Fixpoint unique_go (seen : gset string) (l : list string) : list string :=
  match l with
  | [] => []
  | x :: l' =>
      if decide (x ∈ seen) then unique_go seen l'
      else x :: unique_go ({[x]} ∪ seen) l'
  end.

Definition unique (l : list string) : list string := unique_go ∅ l.

End Pd.

(** ** The Flask application *)

Module App.
Import Pd.

(** The process state: the two tables loaded at start-up and what has been
    printed so far. *)
Record Server := {
  data : DataFrame;
  remedy_data : DataFrame;
  stdout : list string
}.

Definition print (line : string) (srv : Server) : Server :=
  {| data := data srv; remedy_data := remedy_data srv;
     stdout := stdout srv ++ [line] |}.

(** Flask's [request]: the method, the parsed JSON body ([None] when there
    is none; an object whose members are strings otherwise) and the query
    arguments. *)
Inductive Method := POST | GET.

Record Request := {
  method : Method;
  get_json : option (gmap string string);
  args : gmap string string
}.

(** [d.get(key, default)] *)
Definition dict_get (d : gmap string string) (key dflt : string) : string :=
  default dflt (d !! key).

(** [not content] for the result of [request.get_json()] *)
Definition no_content (content : option (gmap string string)) : bool :=
  match content with
  | None => true
  | Some d => bool_decide (d = ∅)
  end.

(** The JSON bodies built with [jsonify]. *)
Inductive Json :=
| JError (error : string)
| JRemedies (disease : string) (remedies : list string).

Inductive Body :=
| Text (text : string)
| JsonBody (json : Json).

Record Response := { body : Body; status : nat }.

Definition home : Response :=
  {| body := Text "✅ Backend is running! Use POST /check-outbreak, GET /test-check?state=&district=, or POST/GET /get-remedy";
     status := 200 |}.

(** Lines 77-80: the rows of [data] for a state and a district. *)
Definition outbreak_mask (states districts : list cell)
    (state district : string) : list bool :=
  mask_and (eq_str (str_lower states) state)
           (eq_str (str_lower districts) district).

Definition outbreak_filter (data : DataFrame) (state district : string)
    : Exc DataFrame :=
  states ← getitem data "Name of State/UT";
  districts ← getitem data "Name of District";
  mret (getitem_mask data (outbreak_mask states districts state district)).

(** Lines 84-87: the text that lists the diseases. *)
Definition outbreak_str (diseases : list cell) : string :=
  let unique_diseases :=
    Py.sorted (unique (str_title (str_strip (dropna diseases)))) in
  match unique_diseases with
  | [] => "unspecified diseases"
  | _ => Py.join ", " unique_diseases
  end.

Definition alert_message (state district listing : string) : string :=
  "⚠️ Alert! Your area " +:+ Py.title district +:+ " in " +:+ Py.title state
  +:+ " has reported disease outbreak(s): " +:+ listing +:+ ".".

Definition good_news_message (state district : string) : string :=
  "✅ Good news! Your area " +:+ Py.title district +:+ ", " +:+ Py.title state
  +:+ " currently shows no reported disease outbreaks in our records. "
  +:+ "However, if you're experiencing symptoms, you can check our remedies section.".

(** The body of the [try] of [get_outbreak_response]. *)
Definition outbreak_try (data : DataFrame) (state district : string)
    : Exc string :=
  filtered ← outbreak_filter data state district;
  if negb (empty filtered) then
    diseases ← getitem filtered "Disease/Illness";
    mret (alert_message state district (outbreak_str diseases))
  else
    mret (good_news_message state district).

Definition get_outbreak_response (state district : string) (srv : Server)
    : Response * Server :=
  match outbreak_try (data srv) state district with
  | Ok message => ({| body := Text message; status := 200 |}, srv)
  | Raise e =>
      let srv' :=
        print ("Error during outbreak check for " +:+ state +:+ ", "
               +:+ district +:+ ": " +:+ exception_str e) srv in
      ({| body := Text ("An error occurred while checking for outbreaks in "
                        +:+ Py.title district +:+ ", " +:+ Py.title state
                        +:+ ". Please try again later.");
          status := 500 |}, srv')
  end.

Definition check_outbreak (request : Request) (srv : Server)
    : Response * Server :=
  let content := get_json request in
  match content with
  | Some content' =>
      if no_content content then
        ({| body := Text "Error: No JSON data received."; status := 400 |}, srv)
      else
        let state := Py.lower (Py.strip (dict_get content' "state" EmptyString)) in
        let district := Py.lower (Py.strip (dict_get content' "district" EmptyString)) in
        if Py.falsy state || Py.falsy district then
          ({| body := Text "Error: Both 'state' and 'district' are required.";
              status := 400 |}, srv)
        else get_outbreak_response state district srv
  | None =>
      ({| body := Text "Error: No JSON data received."; status := 400 |}, srv)
  end.

Definition test_check (request : Request) (srv : Server)
    : Response * Server :=
  let state := Py.lower (Py.strip (dict_get (args request) "state" EmptyString)) in
  let district := Py.lower (Py.strip (dict_get (args request) "district" EmptyString)) in
  if Py.falsy state || Py.falsy district then
    ({| body := Text "Error: Both 'state' and 'district' query parameters are required.";
        status := 400 |}, srv)
  else get_outbreak_response state district srv.

(** Line 127: the rows of [remedy_data] for a disease. *)
Definition remedy_mask (diseases : list cell) (disease_input : string)
    : list bool :=
  eq_str (fillna EmptyString (str_lower diseases)) disease_input.

Definition remedy_filter (remedy_data : DataFrame) (disease_input : string)
    : Exc DataFrame :=
  diseases ← getitem remedy_data "Disease";
  mret (getitem_mask remedy_data (remedy_mask diseases disease_input)).

Definition missing_column_message : string :=
  "⚠️ Error: Remedy data format issue (Missing 'Disease' column).".
Definition none_listed_message : string :=
  "⚠️ No specific remedies listed for this disease, although it was found.".
Definition not_found_message : string :=
  "✅ No Ayurvedic remedy found for this specific disease in our database.".
Definition lookup_failed_message : string :=
  "⚠️ An error occurred while searching for remedies. Please try again later.".

(** The body of the [try] of [get_remedy]. *)
Definition remedy_try (remedy_data : DataFrame) (disease_input : string)
    : Exc Response :=
  if negb (has_column remedy_data "Disease") then
    mret {| body := JsonBody (JRemedies (Py.title disease_input)
                                [missing_column_message]);
            status := 500 |}
  else
    remedies ← remedy_filter remedy_data disease_input;
    if negb (empty remedies) then
      texts ← getitem remedies "Remedy";
      let remedy_list := unique (dropna texts) in
      match remedy_list with
      | [] =>
          mret {| body := JsonBody (JRemedies (Py.title disease_input)
                                      [none_listed_message]);
                  status := 200 |}
      | _ =>
          mret {| body := JsonBody (JRemedies (Py.title disease_input)
                                      remedy_list);
                  status := 200 |}
      end
    else
      mret {| body := JsonBody (JRemedies (Py.title disease_input)
                                  [not_found_message]);
              status := 200 |}.

(** Lines 119-153: the lookup once [disease_input] is known. *)
Definition remedy_lookup (disease_input : string) (srv : Server)
    : Response * Server :=
  match remedy_try (remedy_data srv) disease_input with
  | Ok response => (response, srv)
  | Raise e =>
      let srv' :=
        print ("Error during remedy lookup for " +:+ disease_input +:+ ": "
               +:+ exception_str e) srv in
      ({| body := JsonBody (JRemedies (Py.title disease_input)
                              [lookup_failed_message]);
          status := 500 |}, srv')
  end.

Definition get_remedy (request : Request) (srv : Server)
    : Response * Server :=
  let missing :=
    ({| body := JsonBody (JError "Disease parameter is required.");
        status := 400 |}, srv) in
  match method request with
  | POST =>
      let content := get_json request in
      match content with
      | Some content' =>
          if no_content content then
            ({| body := JsonBody (JError "No JSON data received.");
                status := 400 |}, srv)
          else
            let disease_input :=
              Py.lower (Py.strip (dict_get content' "disease" EmptyString)) in
            if Py.falsy disease_input then missing
            else remedy_lookup disease_input srv
      | None =>
          ({| body := JsonBody (JError "No JSON data received.");
              status := 400 |}, srv)
      end
  | GET =>
      let disease_input :=
        Py.lower (Py.strip (dict_get (args request) "disease" EmptyString)) in
      if Py.falsy disease_input then missing
      else remedy_lookup disease_input srv
  end.

(** The routes. *)
Inductive Endpoint := Home | CheckOutbreak | TestCheck | GetRemedy.

Definition handle (endpoint : Endpoint) (request : Request) (srv : Server)
    : Response * Server :=
  match endpoint with
  | Home => (home, srv)
  | CheckOutbreak => check_outbreak request srv
  | TestCheck => test_check request srv
  | GetRemedy => get_remedy request srv
  end.

(** The server answering a sequence of requests, one after the other. *)
Fixpoint serve (requests : list (Endpoint * Request)) (srv : Server)
    : list Response * Server :=
  match requests with
  | [] => ([], srv)
  | (endpoint, request) :: rest =>
      let '(response, srv') := handle endpoint request srv in
      let '(responses, srv'') := serve rest srv' in
      (response :: responses, srv'')
  end.

End App.

(** ** Vocabulary of the properties *)

Module Spec.
Import Pd App.

(** A string made of white space only (the empty string included). *)
Fixpoint all_space (s : string) : bool :=
  match s with
  | EmptyString => true
  | String c s' => Py.isspace c && all_space s'
  end.

(** The number of distinct values of a list. *)
Definition distinct (l : list string) : nat :=
  size (list_to_set l : gset string).

(** The values of a list at the positions where the value occurs for the
    first time, in the order of the list. *)
Definition first_occurrences (l : list string) : list string :=
  omap (fun i => x ← l !! i; if decide (x ∈ take i l) then None else Some x)
       (seq 0 (length l)).

(** Row [i] of the outbreak table is a row of the queried state and
    district: both keys are present and equal the query once lower-cased. *)
Definition outbreak_row (states districts : list cell)
    (state district : string) (i : nat) : Prop :=
  exists s d, states !! i = Some (Some s) /\ districts !! i = Some (Some d)
              /\ Py.lower s = state /\ Py.lower d = district.

(** Row [i] of the remedy table is a row of the queried disease. *)
Definition remedy_row (diseases : list cell) (disease_input : string)
    (i : nat) : Prop :=
  exists s, diseases !! i = Some (Some s) /\ Py.lower s = disease_input.

(** The non-null remedy texts of the rows of a disease, in table order. *)
Definition remedy_texts (diseases remedies : list cell)
    (disease_input : string) : list string :=
  omap (fun row : cell * cell =>
          if decide (Py.lower <$> row.1 = Some disease_input) then row.2
          else None)
       (zip diseases remedies).

(** The value a request carries for the [disease] parameter. *)
Definition disease_param (request : Request) : option string :=
  match method request with
  | POST => content ← get_json request; content !! "disease"
  | GET => args request !! "disease"
  end.

(** The parameters a request brings to an endpoint: the members of the
    JSON body for a POST, none when the body is absent or empty; the query
    arguments for a GET. *)
Definition params (endpoint : Endpoint) (request : Request)
    : option (gmap string string) :=
  match endpoint with
  | Home => None
  | CheckOutbreak =>
      if no_content (get_json request) then None else get_json request
  | TestCheck => Some (args request)
  | GetRemedy =>
      match method request with
      | POST => if no_content (get_json request) then None else get_json request
      | GET => Some (args request)
      end
  end.

(** The parameters an endpoint requires. *)
Definition required (endpoint : Endpoint) : list string :=
  match endpoint with
  | Home => []
  | CheckOutbreak | TestCheck => ["state"; "district"]
  | GetRemedy => ["disease"]
  end.

(** The body that names the required parameters of an endpoint. *)
Definition missing_parameter_body (endpoint : Endpoint) : Body :=
  match endpoint with
  | Home => body home
  | CheckOutbreak => Text "Error: Both 'state' and 'district' are required."
  | TestCheck =>
      Text "Error: Both 'state' and 'district' query parameters are required."
  | GetRemedy => JsonBody (JError "Disease parameter is required.")
  end.


(** A parameter of a request, trimmed and lower-cased as the handlers
    do; a missing parameter counts as the empty string. *)
Definition normalized (ps : gmap string string) (key : string) : string :=
  Py.lower (Py.strip (dict_get ps key EmptyString)).

(** What an endpoint answers to the parameters [ps]. *)
Definition respond (endpoint : Endpoint) (ps : gmap string string)
    (srv : Server) : Response * Server :=
  match endpoint with
  | Home => (home, srv)
  | CheckOutbreak | TestCheck =>
      if Py.falsy (normalized ps "state") || Py.falsy (normalized ps "district")
      then ({| body := missing_parameter_body endpoint; status := 400 |}, srv)
      else get_outbreak_response (normalized ps "state")
             (normalized ps "district") srv
  | GetRemedy =>
      if Py.falsy (normalized ps "disease")
      then ({| body := missing_parameter_body endpoint; status := 400 |}, srv)
      else remedy_lookup (normalized ps "disease") srv
  end.

(** [b] is [a] with the case of its letters changed and white space added
    around it. *)
Definition same_query (a b : string) : Prop :=
  exists pre core post,
    b = pre +:+ core +:+ post
    /\ all_space pre = true /\ all_space post = true
    /\ Py.lower core = Py.lower a.

(** The body of the answer when the outbreak lookup raises. *)
Definition outbreak_failed_body (state district : string) : Body :=
  Text ("An error occurred while checking for outbreaks in "
        +:+ Py.title district +:+ ", " +:+ Py.title state
        +:+ ". Please try again later.").

(** The number of answers with status 500. *)
Definition failures (responses : list Response) : nat :=
  length (filter (fun r => status r = 500) responses).

End Spec.

(** ** Sample tables and requests *)

Module Sample.
Import Pd App.

Definition outbreaks : DataFrame :=
  {| nrows := 4;
     columns :=
       {[ "Name of State/UT" := [Some "Kerala"; Some "Kerala"; None; Some "Kerala"];
          "Name of District" := [Some "Wayanad"; Some "Wayanad"; Some "Wayanad"; Some "Wayanad"];
          "Disease/Illness" := [Some " dengue "; Some "Cholera"; Some "Malaria"; Some "Dengue"] ]} |}.

Definition remedy_table : DataFrame :=
  {| nrows := 4;
     columns :=
       {[ "Disease" := [Some "Dengue"; Some "Dengue"; Some "Dengue"; None];
          "Remedy" := [Some "Papaya leaf extract"; Some "Papaya leaf extract";
                       Some "Giloy juice"; Some "Rest"] ]} |}.

Definition server : Server :=
  {| data := outbreaks; remedy_data := remedy_table; stdout := [] |}.

Definition query (state district : string) : Request :=
  {| method := GET; get_json := None;
     args := {[ "state" := state; "district" := district ]} |}.

Definition ask (disease : string) : Request :=
  {| method := GET; get_json := None; args := {[ "disease" := disease ]} |}.

(** A table whose only row stores its state with a leading space. *)
Definition padded : DataFrame :=
  {| nrows := 1;
     columns :=
       {[ "Name of State/UT" := [Some " Kerala"];
          "Name of District" := [Some "Wayanad"];
          "Disease/Illness" := [Some "Dengue"] ]} |}.


(** Remedy tables: one row without a text, one row with a text made of
    white space, and a table without the [Remedy] column. *)
Definition no_text : DataFrame :=
  {| nrows := 1;
     columns := {[ "Disease" := [Some "Dengue"]; "Remedy" := [None] ]} |}.

Definition blank_text : DataFrame :=
  {| nrows := 1;
     columns := {[ "Disease" := [Some "Dengue"]; "Remedy" := [Some "  "] ]} |}.

Definition no_remedy_column : DataFrame :=
  {| nrows := 1; columns := {[ "Disease" := [Some "Dengue"] ]} |}.

Definition no_disease_column : DataFrame :=
  {| nrows := 1; columns := {[ "Remedy" := [Some "Giloy juice"] ]} |}.

Definition remedies_from (table : DataFrame) : Server :=
  {| data := outbreaks; remedy_data := table; stdout := [] |}.


Definition post (members : gmap string string) : Request :=
  {| method := POST; get_json := Some members; args := ∅ |}.


Definition no_illness_column : DataFrame :=
  {| nrows := 1;
     columns :=
       {[ "Name of State/UT" := [Some "Kerala"];
          "Name of District" := [Some "Wayanad"] ]} |}.


Definition serving (table : DataFrame) : Server :=
  {| data := table; remedy_data := remedy_table; stdout := [] |}.

End Sample.

(** * Properties *)

(** The two examples of the service description. *)

Example test_check_ex :
  (App.test_check (Sample.query "kerala" " WAYANAD ") Sample.server).1
  = {| App.body := App.Text "⚠️ Alert! Your area Wayanad in Kerala has reported disease outbreak(s): Cholera, Dengue.";
       App.status := 200 |}.
Proof. vm_compute. reflexivity. Qed.

Example get_remedy_ex :
  (App.get_remedy (Sample.ask "dengue") Sample.server).1
  = {| App.body := App.JsonBody (App.JRemedies "Dengue" ["Papaya leaf extract"; "Giloy juice"]);
       App.status := 200 |}.
Proof. vm_compute. reflexivity. Qed.

(** ** Python strings *)

Module PyFacts.
Import Py Spec.


Lemma falsy_false s : falsy s = false <-> s <> EmptyString.
Proof. destruct s; simpl; split; congruence. Qed.


Lemma lstrip_empty s : lstrip s = EmptyString <-> all_space s = true.
Proof.
  induction s as [|c s IH]; simpl; [tauto|].
  destruct (isspace c); simpl; [exact IH|].
  split; discriminate.
Qed.

Lemma lstrip_head s c r : lstrip s = String c r -> isspace c = false.
Proof.
  induction s as [|c' s IH]; simpl; [discriminate|].
  destruct (isspace c') eqn:E; [exact IH|].
  intros [= -> _]. exact E.
Qed.

Lemma rstrip_empty s : rstrip s = EmptyString <-> all_space s = true.
Proof.
  induction s as [|c s IH]; simpl; [tauto|].
  destruct (rstrip s) eqn:R.
  - destruct (isspace c); simpl.
    + split; intros _; [now apply IH|reflexivity].
    + split; discriminate.
  - split; [discriminate|].
    intros [_ H]%andb_true_iff. apply IH in H. discriminate.
Qed.




Lemma sorted_Permutation l : sorted l ≡ₚ l.
Proof. apply merge_sort_Permutation. Qed.

Lemma sorted_nil l : sorted l = [] <-> l = [].
Proof.
  split.
  - intros H. apply Permutation_nil_r. rewrite <- H.
    symmetry. apply sorted_Permutation.
  - intros ->. reflexivity.
Qed.

End PyFacts.

(** ** Columns, masks and [unique] *)

Module PdFacts.
Import Pd Spec.

Section select.
Context {A : Type}.
Implicit Types (mask : list bool) (l : list A).

Lemma elem_of_select mask l x :
  x ∈ select mask l <-> exists i, mask !! i = Some true /\ l !! i = Some x.
Proof.
  revert l. induction mask as [|b mask IH]; intros [|y l]; simpl.
  - split; [intros []%elem_of_nil | intros (i & H & _); destruct i; discriminate].
  - split; [intros []%elem_of_nil | intros (i & H & _); destruct i; discriminate].
  - split; [intros []%elem_of_nil | intros (i & _ & H); destruct i; discriminate].
  - destruct b.
    + rewrite elem_of_cons, IH. split.
      * intros [-> | (i & Hm & Hl)]; [exists 0 | exists (S i)]; auto.
      * intros ([|i] & Hm & Hl); simpl in *; [left; congruence | right; eauto].
    + rewrite IH. split.
      * intros (i & Hm & Hl). exists (S i). auto.
      * intros ([|i] & Hm & Hl); simpl in *; [discriminate | eauto].
Qed.

Lemma select_nil mask l :
  (forall i, mask !! i <> Some true) -> select mask l = [].
Proof.
  intros H. destruct (select mask l) as [|x r] eqn:E; [reflexivity|].
  assert (Hx : x ∈ select mask l) by (rewrite E; left).
  apply elem_of_select in Hx as (i & Hm & _). now destruct (H i).
Qed.
End select.

Lemma length_select {A} (mask : list bool) (l : list A) :
  length l = length mask -> length (select mask l) = count_true mask.
Proof.
  unfold count_true. revert l.
  induction mask as [|b mask IH]; intros [|x l]; simpl; try discriminate;
    [reflexivity|].
  intros [= H]. destruct b.
  - rewrite filter_cons_True by exact I. simpl. f_equal. now apply IH.
  - rewrite filter_cons_False by (intros []). now apply IH.
Qed.

(** Selecting rows keeps a table well formed. *)
Lemma getitem_mask_wf df mask :
  wf df -> length mask = nrows df -> wf (getitem_mask df mask).
Proof.
  intros Hwf Hlen name col. unfold getitem_mask. cbn [columns nrows].
  rewrite lookup_fmap. destruct (columns df !! name) as [col'|] eqn:E;
    [|discriminate].
  intros [= <-]. apply length_select. rewrite Hlen. exact (Hwf name col' E).
Qed.

Lemma count_true_zero mask :
  count_true mask = 0 <-> forall i, mask !! i <> Some true.
Proof.
  unfold count_true. induction mask as [|b mask IH]; simpl.
  - split; [intros _ i; destruct i; discriminate | reflexivity].
  - destruct b.
    + rewrite filter_cons_True by exact I. simpl. split; [discriminate|].
      intros H. now destruct (H 0).
    + rewrite filter_cons_False by (intros []). rewrite IH. split.
      * intros H [|i]; simpl; [discriminate | apply H].
      * intros H i. apply (H (S i)).
Qed.

Lemma eq_str_lookup s x i :
  eq_str s x !! i = Some true <-> s !! i = Some (Some x).
Proof.
  unfold eq_str. rewrite list_lookup_fmap.
  destruct (s !! i) as [[v|]|]; simpl; [|split; discriminate..].
  unfold cell_eq. case_bool_decide; split; congruence.
Qed.

Lemma str_lower_lookup s i x :
  str_lower s !! i = Some (Some x)
  <-> exists v, s !! i = Some (Some v) /\ Py.lower v = x.
Proof.
  unfold str_lower. rewrite list_lookup_fmap.
  destruct (s !! i) as [[v|]|]; simpl.
  - split; [intros [= <-]; eauto | intros (? & [= <-] & <-); reflexivity].
  - split; [discriminate | intros (? & [=] & _)].
  - split; [discriminate | intros (? & [=] & _)].
Qed.

Lemma mask_and_lookup m1 m2 i :
  mask_and m1 m2 !! i = Some true
  <-> m1 !! i = Some true /\ m2 !! i = Some true.
Proof.
  unfold mask_and. rewrite lookup_zip_with.
  destruct (m1 !! i) as [[]|], (m2 !! i) as [[]|]; simpl;
    split; try discriminate; try (intros []; discriminate); auto.
Qed.

Lemma dropna_elem (s : list cell) x : x ∈ dropna s <-> Some x ∈ s.
Proof.
  unfold dropna. rewrite list_elem_of_omap. split.
  - intros (c & Hc & Hid). unfold id in Hid. now subst c.
  - intros H. exists (Some x). auto.
Qed.

Lemma dropna_nil (s : list cell) :
  dropna s = [] <-> forall x, Some x ∉ s.
Proof.
  split.
  - intros H x Hx. apply dropna_elem in Hx. rewrite H in Hx.
    now apply elem_of_nil in Hx.
  - intros H. destruct (dropna s) as [|x r] eqn:E; [reflexivity|].
    destruct (H x). apply dropna_elem. rewrite E. left.
Qed.

(** *** [unique] *)

Lemma elem_of_unique_go seen l x :
  x ∈ unique_go seen l <-> x ∈ l /\ x ∉ seen.
Proof.
  revert seen. induction l as [|y l IH]; intros seen; simpl.
  - rewrite !elem_of_nil. tauto.
  - destruct (decide (y ∈ seen)) as [Hy|Hy].
    + rewrite IH, elem_of_cons. split; [tauto|].
      intros [[->|?] ?]; tauto.
    + rewrite !elem_of_cons, IH. split.
      * intros [->|[? ?]]; [tauto|]. split; [tauto|set_solver].
      * intros [[->|?] ?]; [tauto|].
        destruct (decide (x = y)) as [->|]; [tauto|]. right. set_solver.
Qed.

Lemma NoDup_unique_go seen l : NoDup (unique_go seen l).
Proof.
  revert seen. induction l as [|y l IH]; intros seen; simpl.
  - constructor.
  - destruct (decide (y ∈ seen)); [apply IH|].
    constructor; [|apply IH].
    rewrite elem_of_unique_go. set_solver.
Qed.

Lemma elem_of_unique l x : x ∈ unique l <-> x ∈ l.
Proof. unfold unique. rewrite elem_of_unique_go. set_solver. Qed.

Lemma NoDup_unique l : NoDup (unique l).
Proof. apply NoDup_unique_go. Qed.

Lemma unique_nil l : unique l = [] <-> l = [].
Proof.
  split; [|intros ->; reflexivity].
  destruct l as [|x l]; [reflexivity|]. intros H.
  assert (Hx : x ∈ unique (x :: l)) by (apply elem_of_unique; left).
  rewrite H in Hx. now apply elem_of_nil in Hx.
Qed.

Lemma length_unique l : length (unique l) = distinct l.
Proof.
  unfold distinct. rewrite <- (size_list_to_set (C:=gset string) (unique l))
    by apply NoDup_unique.
  f_equal. apply set_eq. intros x.
  rewrite !elem_of_list_to_set. apply elem_of_unique.
Qed.

Lemma unique_go_positions seen l :
  unique_go seen l
  = omap (fun i => x ← l !! i;
                   if decide (x ∈ seen \/ x ∈ take i l) then None else Some x)
         (seq 0 (length l)).
Proof.
  revert seen. induction l as [|y l IH]; intros seen; [reflexivity|].
  cbn [unique_go length seq]. rewrite <- fmap_S_seq. cbn [omap list_omap].
  cbn [lookup list_lookup mbind option_bind take].
  assert (Hrest : forall seen',
    (forall x, x ∈ seen' <-> x ∈ seen \/ x = y) ->
    unique_go seen' l
    = omap (fun i => x ← (y :: l) !! i;
                     if decide (x ∈ seen \/ x ∈ take i (y :: l))
                     then None else Some x) (S <$> seq 0 (length l))).
  { intros seen' Hseen. rewrite IH. apply list_omap_ext.
    apply Forall2_fmap_r, Forall_Forall2_diag, Forall_forall.
    intros i _. unfold compose. cbn beta.
    change ((y :: l) !! S i) with (l !! i).
    change (take (S i) (y :: l)) with (y :: take i l).
    destruct (l !! i) as [x|]; [|reflexivity]. cbn [mbind option_bind].
    apply decide_ext. rewrite Hseen, elem_of_cons. tauto. }
  destruct (decide (y ∈ seen)) as [Hy|Hy].
  - rewrite decide_True by (left; exact Hy).
    apply Hrest. intros x. split; [tauto|]. intros [?| ->]; assumption.
  - rewrite decide_False by (rewrite elem_of_nil; tauto).
    f_equal. apply Hrest. intros x. set_solver.
Qed.

Lemma unique_first_occurrences l : unique l = first_occurrences l.
Proof.
  unfold unique, first_occurrences. rewrite unique_go_positions.
  apply list_omap_ext, Forall_Forall2_diag, Forall_forall. intros i _.
  destruct (l !! i) as [x|]; [|reflexivity]. cbn [mbind option_bind].
  apply decide_ext. set_solver.
Qed.

End PdFacts.

(** ** The lookups *)

Module AppFacts.
Import Pd App Spec PdFacts PyFacts.

Lemma outbreak_mask_lookup states districts state district i :
  outbreak_mask states districts state district !! i = Some true
  <-> outbreak_row states districts state district i.
Proof.
  unfold outbreak_mask, outbreak_row.
  rewrite mask_and_lookup, !eq_str_lookup, !str_lower_lookup.
  split.
  - intros [(s & Hs & Es) (d & Hd & Ed)]. exists s, d. auto.
  - intros (s & d & Hs & Hd & Es & Ed). split; eauto.
Qed.

Lemma remedy_mask_lookup diseases disease_input i :
  disease_input <> EmptyString ->
  remedy_mask diseases disease_input !! i = Some true
  <-> remedy_row diseases disease_input i.
Proof.
  intros Hne. unfold remedy_mask, remedy_row, fillna, str_lower.
  rewrite eq_str_lookup, !list_lookup_fmap.
  destruct (diseases !! i) as [[s|]|]; simpl.
  - split; [intros [= <-]; eauto | intros (? & [= <-] & <-); reflexivity].
  - split; [intros [= E]; now destruct Hne | intros (? & [=] & _)].
  - split; [discriminate | intros (? & [=] & _)].
Qed.

Lemma getitem_Some df name col :
  columns df !! name = Some col -> getitem df name = Ok col.
Proof. unfold getitem. now intros ->. Qed.


Lemma getitem_mask_column df mask name :
  columns (getitem_mask df mask) !! name = select mask <$> columns df !! name.
Proof. unfold getitem_mask. simpl. apply lookup_fmap. Qed.

Lemma has_column_true df name col :
  columns df !! name = Some col -> has_column df name = true.
Proof. intros H. unfold has_column. apply bool_decide_eq_true. rewrite H. eauto. Qed.

Lemma has_column_false df name :
  columns df !! name = None -> has_column df name = false.
Proof.
  intros H. unfold has_column. apply bool_decide_eq_false. rewrite H.
  intros [? [=]].
Qed.


Lemma empty_getitem_mask_false df mask name col i :
  columns df !! name = Some col -> mask !! i = Some true ->
  empty (getitem_mask df mask) = false.
Proof.
  intros Hcol Hi. unfold empty, getitem_mask. simpl.
  apply orb_false_iff. split; apply bool_decide_eq_false.
  - rewrite count_true_zero. intros H. now destruct (H i).
  - rewrite fmap_empty_iff. intros E. rewrite E in Hcol.
    now rewrite lookup_empty in Hcol.
Qed.

Lemma outbreak_filter_Ok df states districts state district :
  columns df !! "Name of State/UT" = Some states ->
  columns df !! "Name of District" = Some districts ->
  outbreak_filter df state district
  = Ok (getitem_mask df (outbreak_mask states districts state district)).
Proof.
  intros Hs Hd. unfold outbreak_filter.
  rewrite (getitem_Some _ _ _ Hs). cbn. rewrite (getitem_Some _ _ _ Hd).
  reflexivity.
Qed.

Lemma remedy_filter_Ok df diseases disease_input :
  columns df !! "Disease" = Some diseases ->
  remedy_filter df disease_input
  = Ok (getitem_mask df (remedy_mask diseases disease_input)).
Proof.
  intros Hd. unfold remedy_filter. rewrite (getitem_Some _ _ _ Hd).
  reflexivity.
Qed.

(** A request with a usable [disease] parameter reaches the lookup with the
    parameter trimmed and lower-cased. *)
Lemma get_remedy_param request srv raw :
  disease_param request = Some raw ->
  Py.lower (Py.strip raw) <> EmptyString ->
  get_remedy request srv = remedy_lookup (Py.lower (Py.strip raw)) srv.
Proof.
  unfold disease_param, get_remedy. intros Hp Hne.
  apply falsy_false in Hne.
  destruct (method request).
  - destruct (get_json request) as [content|]; [|discriminate].
    cbn in Hp. unfold no_content. case_bool_decide as Hc.
    + subst content. now rewrite lookup_empty in Hp.
    + unfold dict_get. rewrite Hp. cbn [default from_option id]. now rewrite Hne.
  - unfold dict_get. rewrite Hp. cbn [default from_option id]. now rewrite Hne.
Qed.

End AppFacts.

(** ** Outbreak lookup *)

Section outbreak.
Import Pd App Spec PdFacts PyFacts AppFacts.

Lemma bind_Ok {A B} (a : A) (k : A -> Exc B) : (Ok a ≫= k) = k a.
Proof. reflexivity. Qed.

Lemma bind_Raise {A B} e (k : A -> Exc B) : (Raise e ≫= k) = Raise e.
Proof. reflexivity. Qed.










End outbreak.

(** ** The comparison of the keys *)

Section keys.
Import Pd App Spec PdFacts PyFacts AppFacts.

(** C1, as stated, fails: a stored key is lower-cased but not trimmed.  The
    stored state " Kerala" and the query "kerala" are equal once both are
    trimmed and lower-cased, and so are the stored disease "Dengue " and the
    query "dengue", yet neither row is selected, and the outbreak lookup
    answers that nothing is reported. *)
Lemma C1_stored_key_not_trimmed :
  Py.lower (Py.strip " Kerala") = Py.lower (Py.strip "kerala")
  /\ Py.lower (Py.strip "Wayanad") = Py.lower (Py.strip "wayanad")
  /\ outbreak_mask [Some " Kerala"] [Some "Wayanad"]
       (Py.lower (Py.strip "kerala")) (Py.lower (Py.strip "wayanad")) = [false]
  /\ (test_check (Sample.query "kerala" "wayanad")
        (Sample.serving Sample.padded)).1
     = {| body := Text (good_news_message "kerala" "wayanad"); status := 200 |}
  /\ Py.lower (Py.strip "Dengue ") = Py.lower (Py.strip "dengue")
  /\ remedy_mask [Some "Dengue "] (Py.lower (Py.strip "dengue")) = [false].
Proof. repeat split; vm_compute; reflexivity. Qed.

(** C1 (amended): in both lookups a row is selected exactly when its stored
    key is not null and, lower-cased, equals the query value trimmed and
    lower-cased.  The comparison ignores case on both sides and surrounding
    white space on the side of the query; white space around a stored key
    is kept. *)
Theorem C1_key_comparison (states districts diseases : list cell)
    (raw_state raw_district raw_disease : string) (i : nat) :
  Py.falsy (Py.lower (Py.strip raw_disease)) = false ->
  (outbreak_mask states districts
     (Py.lower (Py.strip raw_state)) (Py.lower (Py.strip raw_district)) !! i
   = Some true
   <-> exists s d, states !! i = Some (Some s) /\ districts !! i = Some (Some d)
                   /\ Py.lower s = Py.lower (Py.strip raw_state)
                   /\ Py.lower d = Py.lower (Py.strip raw_district))
  /\ (remedy_mask diseases (Py.lower (Py.strip raw_disease)) !! i = Some true
      <-> exists s, diseases !! i = Some (Some s)
                    /\ Py.lower s = Py.lower (Py.strip raw_disease)).
Proof.
  intros Hne. apply falsy_false in Hne. split.
  - apply outbreak_mask_lookup.
  - now apply remedy_mask_lookup.
Qed.

(** C1, applied: upper-case stored keys match padded, mixed-case queries. *)
Lemma C1_key_comparison_witness :
  outbreak_mask [Some "KERALA"] [Some "wayanad"]
    (Py.lower (Py.strip " Kerala ")) (Py.lower (Py.strip "WAYANAD  ")) !! 0
  = Some true
  /\ remedy_mask [Some "DENGUE"] (Py.lower (Py.strip "  Dengue")) !! 0
     = Some true.
Proof.
  destruct (C1_key_comparison [Some "KERALA"] [Some "wayanad"] [Some "DENGUE"]
              " Kerala " "WAYANAD  " "  Dengue" 0) as [Ho Hr].
  - reflexivity.
  - split.
    + apply Ho. exists "KERALA", "wayanad". repeat split.
    + apply Hr. exists "DENGUE". repeat split.
Defined.

(** Every request to the remedy endpoint is either refused with status 400
    or looked up under a non-empty disease name. *)
Lemma get_remedy_cases request srv :
  (exists message,
     get_remedy request srv
     = ({| body := JsonBody (JError message); status := 400 |}, srv))
  \/ (exists disease_input,
        Py.falsy disease_input = false
        /\ get_remedy request srv = remedy_lookup disease_input srv).
Proof.
  unfold get_remedy. destruct (method request).
  - destruct (get_json request) as [content|]; [|left; eauto].
    cbv zeta. destruct (no_content (Some content)); [left; eauto|].
    destruct (Py.falsy _) eqn:E; [left; eauto | right; eauto].
  - cbv zeta. destruct (Py.falsy _) eqn:E; [left; eauto | right; eauto].
Qed.



End keys.

(** ** Remedy lookup *)

Section remedy.
Import Pd App Spec PdFacts PyFacts AppFacts.

Lemma remedy_texts_select diseases remedies disease_input :
  disease_input <> EmptyString ->
  dropna (select (remedy_mask diseases disease_input) remedies)
  = remedy_texts diseases remedies disease_input.
Proof.
  intros Hne. unfold remedy_texts, remedy_mask, eq_str, fillna, str_lower, dropna.
  revert remedies. induction diseases as [|d diseases IH]; intros [|r remedies];
    try reflexivity.
  cbn [fmap list_fmap zip zip_with select omap list_omap fst snd].
  destruct d as [s|]; cbn [fmap option_fmap option_map default from_option id cell_eq].
  - case_bool_decide as E.
    + rewrite decide_True by congruence. cbn [omap list_omap id].
      destruct r; [f_equal|]; apply IH.
    + rewrite decide_False by congruence. apply IH.
  - rewrite bool_decide_eq_false_2 by congruence.
    rewrite decide_False by discriminate. apply IH.
Qed.

Lemma remedy_try_no_column df disease_input :
  columns df !! "Disease" = None ->
  remedy_try df disease_input
  = Ok {| body := JsonBody (JRemedies (Py.title disease_input)
                              [missing_column_message]);
          status := 500 |}.
Proof.
  intros H. unfold remedy_try. now rewrite (has_column_false _ _ H).
Qed.


Lemma remedy_try_rows df diseases remedies disease_input i :
  columns df !! "Disease" = Some diseases ->
  columns df !! "Remedy" = Some remedies ->
  remedy_mask diseases disease_input !! i = Some true ->
  remedy_try df disease_input
  = Ok {| body :=
            JsonBody
              (JRemedies (Py.title disease_input)
                 (match unique (dropna (select (remedy_mask diseases disease_input)
                                          remedies)) with
                  | [] => [none_listed_message]
                  | remedy_list => remedy_list
                  end));
          status := 200 |}.
Proof.
  intros Hd Hr Hi. unfold remedy_try.
  rewrite (has_column_true _ _ _ Hd). cbn [negb].
  rewrite (remedy_filter_Ok _ _ _ Hd), bind_Ok.
  rewrite (empty_getitem_mask_false _ _ _ _ _ Hd Hi). cbn [negb].
  unfold getitem at 1. rewrite getitem_mask_column, Hr.
  cbn [fmap option_fmap option_map]. rewrite bind_Ok.
  now destruct (unique _).
Qed.

Lemma remedy_try_rows_no_column df diseases disease_input i :
  columns df !! "Disease" = Some diseases ->
  columns df !! "Remedy" = None ->
  remedy_mask diseases disease_input !! i = Some true ->
  remedy_try df disease_input = Raise (KeyError "Remedy").
Proof.
  intros Hd Hr Hi. unfold remedy_try.
  rewrite (has_column_true _ _ _ Hd). cbn [negb].
  rewrite (remedy_filter_Ok _ _ _ Hd), bind_Ok.
  rewrite (empty_getitem_mask_false _ _ _ _ _ Hd Hi). cbn [negb].
  unfold getitem at 1. rewrite getitem_mask_column, Hr. reflexivity.
Qed.


(** C2, as stated, fails: the column whose absence is reported is the
    disease column, not the column of the remedy texts.  With the [Remedy]
    column absent, a disease that has a row gets the generic failure
    message, and a disease without a row gets the ordinary answer with
    status 200. *)
Lemma C2_missing_remedy_column_generic :
  columns Sample.no_remedy_column !! "Remedy" = None
  /\ (get_remedy (Sample.ask "dengue")
        (Sample.remedies_from Sample.no_remedy_column)).1
     = {| body := JsonBody (JRemedies "Dengue" [lookup_failed_message]);
          status := 500 |}
  /\ lookup_failed_message <> missing_column_message
  /\ (get_remedy (Sample.ask "malaria")
        (Sample.remedies_from Sample.no_remedy_column)).1
     = {| body := JsonBody (JRemedies "Malaria" [not_found_message]);
          status := 200 |}.
Proof.
  split; [vm_compute; reflexivity|]. split; [vm_compute; reflexivity|].
  split; [vm_compute; intros [=]|vm_compute; reflexivity].
Qed.

(** C2 (amended): when the remedy table has no [Disease] column, every
    request that names a disease is answered with status 500 and a body made
    of the title-cased disease name and the one message that reports the
    missing [Disease] column; nothing is printed and no exception is
    raised. *)
Theorem C2_missing_disease_column (request : Request) (srv : Server)
    (raw : string) :
  columns (remedy_data srv) !! "Disease" = None ->
  disease_param request = Some raw ->
  Py.falsy (Py.lower (Py.strip raw)) = false ->
  get_remedy request srv
  = ({| body := JsonBody (JRemedies (Py.title (Py.lower (Py.strip raw)))
                            [missing_column_message]);
        status := 500 |}, srv).
Proof.
  intros Hcol Hp Hne. apply falsy_false in Hne.
  rewrite (get_remedy_param _ _ _ Hp Hne). unfold remedy_lookup.
  now rewrite (remedy_try_no_column _ _ Hcol).
Qed.

(** C2, applied to a table that has only a [Remedy] column. *)
Lemma C2_missing_disease_column_witness :
  get_remedy (Sample.ask " Dengue ")
    (Sample.remedies_from Sample.no_disease_column)
  = ({| body := JsonBody (JRemedies "Dengue" [missing_column_message]);
        status := 500 |}, Sample.remedies_from Sample.no_disease_column).
Proof.
  apply (C2_missing_disease_column (Sample.ask " Dengue ")
           (Sample.remedies_from Sample.no_disease_column) " Dengue ").
  - vm_compute. reflexivity.
  - vm_compute. reflexivity.
  - reflexivity.
Defined.

(** C4, as stated, fails when no matching row has a text: the disease has
    a row, none of its texts is non-null (M = 0), and the answer holds one
    entry. *)
Lemma C4_no_text_one_entry :
  remedy_row [Some "Dengue"] "dengue" 0
  /\ distinct (remedy_texts [Some "Dengue"] [None] "dengue") = 0
  /\ (get_remedy (Sample.ask "dengue") (Sample.remedies_from Sample.no_text)).1
     = {| body := JsonBody (JRemedies "Dengue" [none_listed_message]);
          status := 200 |}
  /\ length [none_listed_message] = 1.
Proof.
  split; [exists "Dengue"; split; reflexivity|].
  repeat split; vm_compute; reflexivity.
Qed.

(** C4 (amended): for a disease whose rows hold M distinct non-null remedy
    texts, M at least 1, the answer has status 200 and lists exactly M
    entries, without repetition: the texts of the rows of the disease at
    their first occurrence, in the order of the table. *)
Theorem C4_remedies_first_occurrences (request : Request) (srv : Server)
    (raw : string) (diseases remedies : list cell) :
  disease_param request = Some raw ->
  Py.falsy (Py.lower (Py.strip raw)) = false ->
  columns (remedy_data srv) !! "Disease" = Some diseases ->
  columns (remedy_data srv) !! "Remedy" = Some remedies ->
  1 <= distinct (remedy_texts diseases remedies (Py.lower (Py.strip raw))) ->
  exists remedy_list,
    get_remedy request srv
    = ({| body := JsonBody (JRemedies (Py.title (Py.lower (Py.strip raw)))
                              remedy_list);
          status := 200 |}, srv)
    /\ length remedy_list
       = distinct (remedy_texts diseases remedies (Py.lower (Py.strip raw)))
    /\ NoDup remedy_list
    /\ remedy_list
       = first_occurrences
           (remedy_texts diseases remedies (Py.lower (Py.strip raw))).
Proof.
  intros Hp Hne Hd Hr HM.
  set (q := Py.lower (Py.strip raw)) in *.
  pose proof (proj1 (falsy_false q) Hne) as Hq.
  set (texts := remedy_texts diseases remedies q) in *.
  assert (Hsel : dropna (select (remedy_mask diseases q) remedies) = texts)
    by now apply remedy_texts_select.
  exists (unique texts).
  rewrite <- unique_first_occurrences, length_unique.
  repeat split; [|apply NoDup_unique].
  rewrite (get_remedy_param _ _ _ Hp Hq). fold q. unfold remedy_lookup.
  assert (Hrow : exists i, remedy_mask diseases q !! i = Some true).
  { destruct texts as [|t rest] eqn:Et; [vm_compute in HM; lia|].
    assert (Ht : t ∈ dropna (select (remedy_mask diseases q) remedies))
      by (rewrite Hsel; left).
    apply dropna_elem, elem_of_select in Ht as (i & Hi & _). eauto. }
  destruct Hrow as [i Hi].
  rewrite (remedy_try_rows _ _ _ _ _ Hd Hr Hi), Hsel.
  destruct (unique texts) eqn:Eu; [|reflexivity].
  apply (proj1 (unique_nil texts)) in Eu. rewrite Eu in HM.
  vm_compute in HM. lia.
Qed.

(** C4, applied to the sample table: three rows of Dengue with two
    distinct texts. *)
Lemma C4_remedies_first_occurrences_witness :
  exists remedy_list,
    get_remedy (Sample.ask "dengue") Sample.server
    = ({| body := JsonBody (JRemedies "Dengue" remedy_list); status := 200 |},
       Sample.server)
    /\ length remedy_list = 2
    /\ remedy_list = ["Papaya leaf extract"; "Giloy juice"].
Proof.
  destruct (C4_remedies_first_occurrences (Sample.ask "dengue") Sample.server
              "dengue"
              [Some "Dengue"; Some "Dengue"; Some "Dengue"; None]
              [Some "Papaya leaf extract"; Some "Papaya leaf extract";
               Some "Giloy juice"; Some "Rest"])
    as (remedy_list & Hresp & Hlen & _ & Hfirst).
  - vm_compute. reflexivity.
  - reflexivity.
  - vm_compute. reflexivity.
  - vm_compute. reflexivity.
  - vm_compute. lia.
  - exists remedy_list. split; [exact Hresp|]. split.
    + rewrite Hlen. vm_compute. reflexivity.
    + rewrite Hfirst. vm_compute. reflexivity.
Defined.



(** C6, as stated, fails for a text made of white space: the only row of
    the disease has the text "  ", which is listed as it is, and the
    placeholder is not used. *)
Lemma C6_blank_text_listed :
  remedy_row [Some "Dengue"] "dengue" 0
  /\ columns Sample.blank_text !! "Remedy" = Some [Some "  "]
  /\ Py.strip "  " = EmptyString
  /\ (get_remedy (Sample.ask "dengue")
        (Sample.remedies_from Sample.blank_text)).1
     = {| body := JsonBody (JRemedies "Dengue" ["  "]); status := 200 |}.
Proof.
  split; [exists "Dengue"; split; reflexivity|].
  repeat split; vm_compute; reflexivity.
Qed.

(** C6 (amended): when the disease has at least one row and the remedy text
    of every one of its rows is null, the answer has status 200 and its
    list holds the one placeholder that says no specific remedy is listed. *)
Theorem C6_all_null_placeholder (request : Request) (srv : Server)
    (raw : string) (diseases remedies : list cell) :
  disease_param request = Some raw ->
  Py.falsy (Py.lower (Py.strip raw)) = false ->
  columns (remedy_data srv) !! "Disease" = Some diseases ->
  columns (remedy_data srv) !! "Remedy" = Some remedies ->
  (exists i, remedy_row diseases (Py.lower (Py.strip raw)) i) ->
  (forall i, remedy_row diseases (Py.lower (Py.strip raw)) i ->
             remedies !! i = Some None) ->
  get_remedy request srv
  = ({| body := JsonBody (JRemedies (Py.title (Py.lower (Py.strip raw)))
                            [none_listed_message]);
        status := 200 |}, srv).
Proof.
  intros Hp Hne Hd Hr [i Hi] Hnull.
  set (q := Py.lower (Py.strip raw)) in *.
  pose proof (proj1 (falsy_false q) Hne) as Hq.
  rewrite (get_remedy_param _ _ _ Hp Hq). fold q. unfold remedy_lookup.
  apply (remedy_mask_lookup diseases q i Hq) in Hi.
  rewrite (remedy_try_rows _ _ _ _ _ Hd Hr Hi).
  assert (E : dropna (select (remedy_mask diseases q) remedies) = []).
  { apply dropna_nil. intros t Ht.
    apply elem_of_select in Ht as (j & Hj & Ht).
    apply (remedy_mask_lookup diseases q j Hq) in Hj.
    rewrite (Hnull j Hj) in Ht. discriminate. }
  rewrite E. reflexivity.
Qed.

(** C6, applied to a table whose only row of Dengue has no text. *)
Lemma C6_all_null_placeholder_witness :
  get_remedy (Sample.ask "DENGUE") (Sample.remedies_from Sample.no_text)
  = ({| body := JsonBody (JRemedies "Dengue" [none_listed_message]);
        status := 200 |}, Sample.remedies_from Sample.no_text).
Proof.
  apply (C6_all_null_placeholder (Sample.ask "DENGUE")
           (Sample.remedies_from Sample.no_text) "DENGUE"
           [Some "Dengue"] [None]).
  - vm_compute. reflexivity.
  - reflexivity.
  - vm_compute. reflexivity.
  - vm_compute. reflexivity.
  - exists 0, "Dengue". split; reflexivity.
  - intros [|i] (s & Hs & _); [reflexivity|]. simpl in Hs. discriminate.
Defined.

End remedy.

(** ** The service as a whole *)

Section service.
Import Pd App Spec PdFacts PyFacts AppFacts.





(** A handler leaves the two tables as they are. *)
Lemma handle_tables endpoint request srv :
  data (handle endpoint request srv).2 = data srv
  /\ remedy_data (handle endpoint request srv).2 = remedy_data srv.
Proof.
  assert (Ho : forall state district,
    data (get_outbreak_response state district srv).2 = data srv
    /\ remedy_data (get_outbreak_response state district srv).2
       = remedy_data srv).
  { intros state district. unfold get_outbreak_response.
    destruct (outbreak_try _ _ _); split; reflexivity. }
  assert (Hr : forall disease_input,
    data (remedy_lookup disease_input srv).2 = data srv
    /\ remedy_data (remedy_lookup disease_input srv).2 = remedy_data srv).
  { intros disease_input. unfold remedy_lookup.
    destruct (remedy_try _ _); split; reflexivity. }
  destruct endpoint; cbn [handle].
  - split; reflexivity.
  - unfold check_outbreak. cbv zeta.
    destruct (get_json request); [|split; reflexivity].
    destruct (no_content _); [split; reflexivity|].
    destruct (_ || _); [split; reflexivity|apply Ho].
  - unfold test_check. cbv zeta.
    destruct (_ || _); [split; reflexivity|apply Ho].
  - destruct (get_remedy_cases request srv) as [[m ->]|(q & _ & ->)];
      [split; reflexivity|apply Hr].
Qed.

(** The answer of a handler depends on the request and on the two tables
    only, not on what has been printed. *)
Lemma handle_response endpoint request srv1 srv2 :
  data srv1 = data srv2 -> remedy_data srv1 = remedy_data srv2 ->
  (handle endpoint request srv1).1 = (handle endpoint request srv2).1.
Proof.
  intros Hd Hr.
  assert (Ho : forall state district,
    (get_outbreak_response state district srv1).1
    = (get_outbreak_response state district srv2).1).
  { intros state district. unfold get_outbreak_response. rewrite Hd.
    destruct (outbreak_try _ _ _); reflexivity. }
  assert (Hl : forall disease_input,
    (remedy_lookup disease_input srv1).1 = (remedy_lookup disease_input srv2).1).
  { intros disease_input. unfold remedy_lookup. rewrite Hr.
    destruct (remedy_try _ _); reflexivity. }
  destruct endpoint; cbn [handle].
  - reflexivity.
  - unfold check_outbreak. cbv zeta.
    destruct (get_json request); [|reflexivity].
    destruct (no_content _); [reflexivity|].
    destruct (_ || _); [reflexivity|apply Ho].
  - unfold test_check. cbv zeta.
    destruct (_ || _); [reflexivity|apply Ho].
  - unfold get_remedy. cbv zeta. destruct (method request).
    + destruct (get_json request); [|reflexivity].
      destruct (no_content _); [reflexivity|].
      destruct (Py.falsy _); [reflexivity|apply Hl].
    + destruct (Py.falsy _); [reflexivity|apply Hl].
Qed.

Lemma serve_tables requests srv :
  data (serve requests srv).2 = data srv
  /\ remedy_data (serve requests srv).2 = remedy_data srv.
Proof.
  revert srv. induction requests as [|[endpoint request] rest IH]; intros srv.
  - split; reflexivity.
  - cbn [serve].
    destruct (handle endpoint request srv) as [response srv'] eqn:E.
    destruct (serve rest srv') as [responses srv''] eqn:E'.
    cbn [snd]. pose proof (IH srv') as [H1 H2]. rewrite E' in H1, H2.
    pose proof (handle_tables endpoint request srv) as [H3 H4].
    rewrite E in H3, H4. cbn [snd] in *. split; congruence.
Qed.

(** C9: whatever requests the server has answered before, the two tables
    are the ones it started with and a request gets the answer it gets
    from the freshly started server; in particular a request asked twice
    in a row gets the same answer twice. *)
Theorem C9_lookups_deterministic (before : list (Endpoint * Request))
    (endpoint : Endpoint) (request : Request) (srv : Server) :
  data (serve before srv).2 = data srv
  /\ remedy_data (serve before srv).2 = remedy_data srv
  /\ (handle endpoint request (serve before srv).2).1
     = (handle endpoint request srv).1
  /\ (handle endpoint request (handle endpoint request srv).2).1
     = (handle endpoint request srv).1.
Proof.
  destruct (serve_tables before srv) as [Hd Hr].
  destruct (handle_tables endpoint request srv) as [Hd' Hr'].
  repeat split; auto using handle_response.
Qed.

End service.

(** ** Trimming and casing *)

Module StripFacts.
Import Py Spec PyFacts.

Ltac by_cases_on c :=
  destruct c as [[] [] [] [] [] [] [] []]; vm_compute; reflexivity.



Lemma isspace_lower_char c : isspace (lower_char c) = isspace c.
Proof. by_cases_on c. Qed.




Lemma lstrip_lower s : lstrip (lower s) = lower (lstrip s).
Proof.
  induction s as [|c s IH]; simpl; [reflexivity|].
  rewrite isspace_lower_char. now destruct (isspace c).
Qed.

Lemma rstrip_lower s : rstrip (lower s) = lower (rstrip s).
Proof.
  induction s as [|c s IH]; simpl; [reflexivity|].
  rewrite IH, isspace_lower_char.
  destruct (rstrip s); simpl; [now destruct (isspace c)|reflexivity].
Qed.

Lemma strip_lower s : strip (lower s) = lower (strip s).
Proof. unfold strip. now rewrite lstrip_lower, rstrip_lower. Qed.

Lemma rstrip_cons c s :
  rstrip (String c s)
  = match rstrip s with
    | EmptyString => if isspace c then EmptyString else String c EmptyString
    | r => String c r
    end.
Proof. reflexivity. Qed.

Lemma rstrip_idem s : rstrip (rstrip s) = rstrip s.
Proof.
  induction s as [|c s IH]; [reflexivity|]. rewrite (rstrip_cons c s).
  destruct (rstrip s) as [|d r] eqn:E.
  - destruct (isspace c) eqn:Ec; [reflexivity|].
    rewrite rstrip_cons. simpl. now rewrite Ec.
  - rewrite rstrip_cons, IH. reflexivity.
Qed.

Lemma rstrip_keeps_head c s :
  isspace c = false -> exists r, rstrip (String c s) = String c r.
Proof.
  intros Hc. simpl. destruct (rstrip s); [rewrite Hc|]; eauto.
Qed.

(** What [lstrip] returns is empty or starts with a character that is not
    white space. *)
Lemma lstrip_cases s :
  lstrip s = EmptyString
  \/ exists c r, lstrip s = String c r /\ isspace c = false.
Proof.
  destruct (lstrip s) as [|c r] eqn:E; [now left|right].
  exists c, r. split; [reflexivity|]. exact (lstrip_head _ _ _ E).
Qed.

Lemma strip_idem s : strip (strip s) = strip s.
Proof.
  unfold strip. destruct (lstrip_cases s) as [-> | (c & r & -> & Hc)].
  - reflexivity.
  - destruct (rstrip_keeps_head c r Hc) as [r' E]. rewrite E.
    cbn [lstrip]. rewrite Hc, <- E. apply rstrip_idem.
Qed.

Lemma all_space_app s t :
  all_space (s +:+ t) = all_space s && all_space t.
Proof.
  induction s as [|c s IH]; [reflexivity|].
  change (String c s +:+ t) with (String c (s +:+ t)). simpl.
  now rewrite IH, andb_assoc.
Qed.

Lemma lstrip_app_space pre s :
  all_space pre = true -> lstrip (pre +:+ s) = lstrip s.
Proof.
  induction pre as [|c pre IH]; [reflexivity|].
  change (String c pre +:+ s) with (String c (pre +:+ s)). simpl.
  intros [-> H]%andb_true_iff. now apply IH.
Qed.

Lemma rstrip_app_space s post :
  all_space post = true -> rstrip (s +:+ post) = rstrip s.
Proof.
  intros Hpost. induction s as [|c s IH].
  - now apply rstrip_empty.
  - change (String c s +:+ post) with (String c (s +:+ post)). simpl.
    now rewrite IH.
Qed.

Lemma lstrip_app s t :
  all_space s = false -> lstrip (s +:+ t) = lstrip s +:+ t.
Proof.
  induction s as [|c s IH]; [discriminate|].
  change (String c s +:+ t) with (String c (s +:+ t)). simpl.
  destruct (isspace c); [exact IH|reflexivity].
Qed.

(** White space added around a string is trimmed away. *)
Lemma strip_app_space pre s post :
  all_space pre = true -> all_space post = true ->
  strip (pre +:+ s +:+ post) = strip s.
Proof.
  intros Hpre Hpost. unfold strip. rewrite (lstrip_app_space _ _ Hpre).
  destruct (all_space s) eqn:Hs.
  - assert (H : all_space (s +:+ post) = true)
      by now rewrite all_space_app, Hs, Hpost.
    apply lstrip_empty in H. apply lstrip_empty in Hs. now rewrite H, Hs.
  - rewrite (lstrip_app _ _ Hs). now apply rstrip_app_space.
Qed.

(** Values equal up to case stay so once trimmed. *)
Lemma lower_strip_ext a b :
  lower a = lower b -> lower (strip a) = lower (strip b).
Proof. intros H. now rewrite <- !strip_lower, H. Qed.


Lemma normal_form_stripped raw :
  strip (lower (strip raw)) = lower (strip raw).
Proof. now rewrite strip_lower, strip_idem. Qed.

Lemma normal_form_same_query a b :
  same_query a b -> lower (strip b) = lower (strip a).
Proof.
  intros (pre & core & post & -> & Hpre & Hpost & Hcore).
  rewrite (strip_app_space _ _ _ Hpre Hpost). now apply lower_strip_ext.
Qed.

Lemma length_lower s : String.length (lower s) = String.length s.
Proof. induction s as [|c s IH]; simpl; congruence. Qed.

Lemma length_lstrip s : String.length (lstrip s) <= String.length s.
Proof.
  induction s as [|c s IH]; simpl; [lia|]. destruct (isspace c); simpl; lia.
Qed.

Lemma lstrip_same_length s :
  String.length (lstrip s) = String.length s -> lstrip s = s.
Proof.
  destruct s as [|c s]; simpl; [reflexivity|].
  destruct (isspace c); [|reflexivity].
  pose proof (length_lstrip s). lia.
Qed.

Lemma length_rstrip s : String.length (rstrip s) <= String.length s.
Proof.
  induction s as [|c s IH]; simpl; [lia|].
  destruct (rstrip s); [destruct (isspace c)|]; simpl in *; lia.
Qed.

Lemma rstrip_same_length s :
  String.length (rstrip s) = String.length s -> rstrip s = s.
Proof.
  induction s as [|c s IH]; simpl; [reflexivity|].
  pose proof (length_rstrip s) as Hle.
  destruct (rstrip s) as [|d r] eqn:E.
  - destruct (isspace c); simpl; [discriminate|].
    intros H. destruct s; [reflexivity|simpl in H; lia].
  - simpl. intros H. f_equal. apply IH. simpl in *. lia.
Qed.

(** A string that trimming shortens by nothing is left as it is. *)
Lemma strip_same_length s :
  String.length (strip s) = String.length s -> strip s = s.
Proof.
  unfold strip. intros H.
  pose proof (length_rstrip (lstrip s)). pose proof (length_lstrip s).
  rewrite rstrip_same_length by lia. apply lstrip_same_length. lia.
Qed.

End StripFacts.

(** ** Failures of the lookups *)

Section failures.
Import Pd App Spec PdFacts PyFacts AppFacts.



(** The disease column is read only when a row matches: without it, a
    lookup that matches a row is answered with status 500 and the generic
    message, and the missing column is named on the standard output. *)
Theorem outbreak_missing_disease_column (srv : Server)
    (states districts : list cell) (state district : string) :
  columns (data srv) !! "Name of State/UT" = Some states ->
  columns (data srv) !! "Name of District" = Some districts ->
  columns (data srv) !! "Disease/Illness" = None ->
  (exists i, outbreak_row states districts state district i) ->
  get_outbreak_response state district srv
  = ({| body := outbreak_failed_body state district; status := 500 |},
     print ("Error during outbreak check for " +:+ state +:+ ", " +:+ district
            +:+ ": 'Disease/Illness'") srv).
Proof.
  intros Hs Hd Hx [i Hi]. apply outbreak_mask_lookup in Hi.
  unfold get_outbreak_response, outbreak_try.
  rewrite (outbreak_filter_Ok _ _ _ _ _ Hs Hd), bind_Ok.
  rewrite (empty_getitem_mask_false _ _ _ _ _ Hs Hi). cbn [negb].
  unfold getitem at 1. rewrite getitem_mask_column, Hx. reflexivity.
Qed.

(** Applied to a table without the disease column. *)
Lemma outbreak_missing_disease_column_witness :
  (get_outbreak_response "kerala" "wayanad"
     (Sample.serving Sample.no_illness_column)).1
  = {| body := outbreak_failed_body "kerala" "wayanad"; status := 500 |}.
Proof.
  rewrite (outbreak_missing_disease_column
             (Sample.serving Sample.no_illness_column)
             [Some "Kerala"] [Some "Wayanad"] "kerala" "wayanad").
  - reflexivity.
  - vm_compute. reflexivity.
  - vm_compute. reflexivity.
  - vm_compute. reflexivity.
  - exists 0, "Kerala", "Wayanad". repeat split.
Defined.

(** When the remedy table has the disease column and lacks the column of
    the texts, a request for a disease that has a row is answered with
    status 500 and the generic failure message under the title-cased name,
    and the missing column is named on the standard output. *)
Theorem remedy_missing_text_column (request : Request) (srv : Server)
    (raw : string) (diseases : list cell) :
  disease_param request = Some raw ->
  Py.falsy (Py.lower (Py.strip raw)) = false ->
  columns (remedy_data srv) !! "Disease" = Some diseases ->
  columns (remedy_data srv) !! "Remedy" = None ->
  (exists i, remedy_row diseases (Py.lower (Py.strip raw)) i) ->
  get_remedy request srv
  = ({| body := JsonBody (JRemedies (Py.title (Py.lower (Py.strip raw)))
                            [lookup_failed_message]);
        status := 500 |},
     print ("Error during remedy lookup for " +:+ Py.lower (Py.strip raw)
            +:+ ": 'Remedy'") srv).
Proof.
  intros Hp Hne Hd Hr [i Hi]. apply falsy_false in Hne.
  rewrite (get_remedy_param _ _ _ Hp Hne). unfold remedy_lookup.
  apply (remedy_mask_lookup diseases _ i Hne) in Hi.
  now rewrite (remedy_try_rows_no_column _ _ _ _ Hd Hr Hi).
Qed.

(** Applied to a table that has only the disease column. *)
Lemma remedy_missing_text_column_witness :
  (get_remedy (Sample.ask "Dengue")
     (Sample.remedies_from Sample.no_remedy_column)).1
  = {| body := JsonBody (JRemedies "Dengue" [lookup_failed_message]);
       status := 500 |}.
Proof.
  rewrite (remedy_missing_text_column (Sample.ask "Dengue")
             (Sample.remedies_from Sample.no_remedy_column) "Dengue"
             [Some "Dengue"]).
  - reflexivity.
  - vm_compute. reflexivity.
  - reflexivity.
  - vm_compute. reflexivity.
  - vm_compute. reflexivity.
  - exists 0, "Dengue". split; reflexivity.
Defined.



End failures.

(** ** Requests and their parameters *)

Section requests.
Import Pd App Spec PdFacts PyFacts AppFacts StripFacts.

(** A handler looks at a request through its parameters only. *)
Lemma handle_respond endpoint request ps srv :
  params endpoint request = Some ps ->
  handle endpoint request srv = respond endpoint ps srv.
Proof.
  destruct endpoint; cbn [params handle respond]; [discriminate|..].
  - unfold check_outbreak. cbv zeta.
    destruct (get_json request) as [content|]; [|discriminate].
    destruct (no_content (Some content)); [discriminate|].
    now intros [= ->].
  - now intros [= <-].
  - unfold get_remedy. cbv zeta. destruct (method request).
    + destruct (get_json request) as [content|]; [|discriminate].
      destruct (no_content (Some content)); [discriminate|].
      now intros [= ->].
    + now intros [= <-].
Qed.






(** Two requests that bring the same parameters to endpoints with the same
    required parameters get the same answer and leave the same state: the
    POST and the GET form of the remedy lookup agree, and so do the POST
    and the GET endpoint of the outbreak lookup, except that each of the
    two has its own wording of the 400 message. *)
Theorem same_parameters_same_answer (endpoint1 endpoint2 : Endpoint)
    (request1 request2 : Request) (ps : gmap string string) (srv : Server) :
  params endpoint1 request1 = Some ps ->
  params endpoint2 request2 = Some ps ->
  required endpoint1 = required endpoint2 ->
  handle endpoint1 request1 srv = handle endpoint2 request2 srv
  \/ (endpoint1 <> endpoint2
      /\ handle endpoint1 request1 srv
         = ({| body := missing_parameter_body endpoint1; status := 400 |}, srv)
      /\ handle endpoint2 request2 srv
         = ({| body := missing_parameter_body endpoint2; status := 400 |}, srv)).
Proof.
  intros H1 H2 Hreq.
  rewrite (handle_respond _ _ _ _ H1), (handle_respond _ _ _ _ H2).
  destruct endpoint1, endpoint2; try discriminate; auto; cbn [respond].
  all: destruct (_ || _); [right; split; [discriminate|auto]|left; reflexivity].
Qed.

(** Applied to a POST and a GET that carry the same state and district. *)
Lemma same_parameters_same_answer_witness :
  handle CheckOutbreak
    (Sample.post {[ "state" := "Kerala"; "district" := "Wayanad" ]})
    Sample.server
  = handle TestCheck (Sample.query "Kerala" "Wayanad") Sample.server.
Proof.
  destruct (same_parameters_same_answer CheckOutbreak TestCheck
              (Sample.post {[ "state" := "Kerala"; "district" := "Wayanad" ]})
              (Sample.query "Kerala" "Wayanad")
              {[ "state" := "Kerala"; "district" := "Wayanad" ]} Sample.server)
    as [E|(_ & E & _)].
  - vm_compute. reflexivity.
  - reflexivity.
  - reflexivity.
  - exact E.
  - vm_compute in E. discriminate E.
Defined.

(** The answer does not depend on the case of the letters of the required
    parameters nor on white space around them: two requests whose required
    parameters differ in these only get the same answer. *)
Theorem query_case_and_padding (endpoint : Endpoint)
    (request1 request2 : Request) (ps1 ps2 : gmap string string)
    (srv : Server) :
  params endpoint request1 = Some ps1 ->
  params endpoint request2 = Some ps2 ->
  (forall key, key ∈ required endpoint ->
     same_query (dict_get ps1 key EmptyString) (dict_get ps2 key EmptyString)) ->
  handle endpoint request1 srv = handle endpoint request2 srv.
Proof.
  intros H1 H2 Hsame.
  rewrite (handle_respond _ _ _ _ H1), (handle_respond _ _ _ _ H2).
  assert (Hn : forall key, key ∈ required endpoint ->
                           normalized ps2 key = normalized ps1 key).
  { intros key Hk. apply normal_form_same_query, Hsame, Hk. }
  destruct endpoint; cbn [respond required] in *; [reflexivity|..].
  - now rewrite (Hn "state"), (Hn "district") by (repeat constructor).
  - now rewrite (Hn "state"), (Hn "district") by (repeat constructor).
  - now rewrite (Hn "disease") by (repeat constructor).
Qed.

(** Applied to the queries "kerala"/"wayanad" and " KERALA "/"Wayanad  ". *)
Lemma query_case_and_padding_witness :
  handle TestCheck (Sample.query "kerala" "wayanad") Sample.server
  = handle TestCheck (Sample.query " KERALA " "Wayanad  ") Sample.server.
Proof.
  apply (query_case_and_padding TestCheck
           (Sample.query "kerala" "wayanad")
           (Sample.query " KERALA " "Wayanad  ")
           (args (Sample.query "kerala" "wayanad"))
           (args (Sample.query " KERALA " "Wayanad  "))).
  - reflexivity.
  - reflexivity.
  - intros key [->|Hk]%elem_of_cons.
    + exists " ", "KERALA", " ". repeat split.
    + apply list_elem_of_singleton in Hk as ->.
      exists EmptyString, "Wayanad", "  ". repeat split.
Defined.



End requests.

(** ** What the answers depend on *)

Section dependence.
Import Pd App Spec PdFacts PyFacts AppFacts StripFacts.




(** A stored key that has white space at either end is out of reach: its
    row is selected by no value of the query, in the outbreak lookup and in
    the remedy lookup. *)
Theorem padded_key_never_matches (states districts diseases : list cell)
    (raw_state raw_district raw_disease stored : string) (i : nat) :
  Py.strip stored <> stored ->
  (states !! i = Some (Some stored) \/ districts !! i = Some (Some stored) ->
   outbreak_mask states districts (Py.lower (Py.strip raw_state))
     (Py.lower (Py.strip raw_district)) !! i <> Some true)
  /\ (diseases !! i = Some (Some stored) ->
      remedy_mask diseases (Py.lower (Py.strip raw_disease)) !! i <> Some true).
Proof.
  intros Hpad.
  assert (Hno : forall raw, Py.lower stored <> Py.lower (Py.strip raw)).
  { intros raw E. apply Hpad, strip_same_length.
    rewrite <- (length_lower (Py.strip stored)), <- strip_lower, E.
    now rewrite normal_form_stripped, <- E, length_lower. }
  split.
  - intros Hcell Hsel. apply outbreak_mask_lookup in Hsel
      as (s & d & Hs & Hd & Es & Ed).
    destruct Hcell as [H|H]; [rewrite H in Hs|rewrite H in Hd];
      simplify_eq; eapply Hno; eauto.
  - intros Hcell Hsel. unfold remedy_mask, fillna, str_lower in Hsel.
    rewrite eq_str_lookup, !list_lookup_fmap, Hcell in Hsel.
    cbn in Hsel. injection Hsel as Hsel. eapply Hno; eauto.
Qed.

(** Applied to the table whose state is stored as " Kerala". *)
Lemma padded_key_never_matches_witness :
  outbreak_mask [Some " Kerala"] [Some "Wayanad"]
    (Py.lower (Py.strip "Kerala")) (Py.lower (Py.strip "Wayanad")) !! 0
  <> Some true.
Proof.
  refine (proj1 (padded_key_never_matches [Some " Kerala"] [Some "Wayanad"] []
                   "Kerala" "Wayanad" EmptyString " Kerala" 0 _) _).
  - vm_compute. discriminate.
  - left. reflexivity.
Defined.

(** A handler changes the state of the server in one way only: it appends
    one line to the standard output, and then its answer has status 500. *)
Lemma handle_log endpoint request srv :
  (handle endpoint request srv).2 = srv
  \/ (status (handle endpoint request srv).1 = 500
      /\ exists line, (handle endpoint request srv).2 = print line srv).
Proof.
  assert (Ho : forall state district,
    (get_outbreak_response state district srv).2 = srv
    \/ (status (get_outbreak_response state district srv).1 = 500
        /\ exists line,
             (get_outbreak_response state district srv).2 = print line srv)).
  { intros state district. unfold get_outbreak_response.
    destruct (outbreak_try _ _ _); [left|right]; eauto. }
  assert (Hr : forall disease_input,
    (remedy_lookup disease_input srv).2 = srv
    \/ (status (remedy_lookup disease_input srv).1 = 500
        /\ exists line, (remedy_lookup disease_input srv).2 = print line srv)).
  { intros disease_input. unfold remedy_lookup.
    destruct (remedy_try _ _); [left|right]; eauto. }
  destruct endpoint; cbn [handle].
  - now left.
  - unfold check_outbreak. cbv zeta.
    destruct (get_json request); [|now left].
    destruct (no_content _); [now left|].
    destruct (_ || _); [now left|apply Ho].
  - unfold test_check. cbv zeta. destruct (_ || _); [now left|apply Ho].
  - destruct (get_remedy_cases request srv) as [[m ->]|(q & _ & ->)];
      [now left|apply Hr].
Qed.

(** The standard output only grows, and by at most one line for each
    answer with status 500: answers with status 200 or 400 print nothing. *)
Theorem log_append_only (requests : list (Endpoint * Request)) (srv : Server) :
  stdout srv `prefix_of` stdout (serve requests srv).2
  /\ length (stdout (serve requests srv).2)
     <= length (stdout srv) + failures (serve requests srv).1.
Proof.
  revert srv. induction requests as [|[endpoint request] rest IH]; intros srv.
  - cbn. split; [reflexivity|lia].
  - cbn [serve]. pose proof (handle_log endpoint request srv) as Hlog.
    destruct (handle endpoint request srv) as [response srv'].
    specialize (IH srv'). destruct (serve rest srv') as [responses srv''].
    cbn [fst snd] in *. destruct IH as [IH1 IH2]. unfold failures in *.
    destruct Hlog as [-> | (Hst & line & ->)].
    + split; [exact IH1|]. rewrite filter_cons.
      destruct (decide (status response = 500)); simpl; lia.
    + cbn [print stdout] in IH1, IH2. split.
      * etrans; [|exact IH1]. now apply prefix_app_r.
      * rewrite filter_cons_True by exact Hst.
        rewrite length_app in IH2. simpl in *. lia.
Qed.

End dependence.
